(** * DeepChat: the session and connectivity logic of [app/main.py]

    A shallow embedding of the Streamlit script [src/app/main.py] and of
    [src/app/utils.py].  The script stores its state in Streamlit's
    [st.session_state], talks to the Ollama server through [ollama.list],
    [ollama.chat] and [ollama.show], and renders through Streamlit calls.

    - Python values that come back from the server are the JSON-like
      values of [Py.pyval]; the operations the script applies to them
      ([in], subscripting, [.get], iteration, [==]) follow Python,
      including the exceptions they raise.
    - The server calls and the widgets are the fields of an environment
      record [env]: one record describes what the outside world answers
      during one run of the script.
    - Streamlit rendering calls only emit to the page; they are recorded as
      events of a trace, next to the calls made to the chat client.
    - [st.error(...)] followed by [st.stop()] ends the run: it is embedded
      as the verdict the run halts with.
    - [ollama.ClientError], which [main] names in an [except] clause, is
      taken to be an exception class of the client library. *)

From Stdlib Require Import String Ascii List ZArith QArith Bool Lia.
Import ListNotations.
Close Scope Q_scope.
Open Scope string_scope.
Set Warnings "-register-all".

(** ** Python values and exceptions *)

Module Py.

(** The exception classes the script tells apart.  [NonException] stands
    for the classes that derive from [BaseException] but not from
    [Exception] ([KeyboardInterrupt], [SystemExit]): [except Exception]
    lets them through, a bare [except:] catches them. *)
Inductive exn_class :=
| ClientError | KeyError | ValueError | TypeError | AttributeError
| IndexError | OtherException | NonException.

(** [str] is the text [str(e)] gives; the texts of the interpreter's own
    errors are shortened. *)
Record exn := Exn { cls : exn_class; str : string }.

Definition is_Exception (e : exn) : bool :=
  match cls e with NonException => false | _ => true end.

Definition is_KeyError (e : exn) : bool :=
  match cls e with KeyError => true | _ => false end.

Definition is_ClientError (e : exn) : bool :=
  match cls e with ClientError => true | _ => false end.

Inductive result (A : Type) :=
| Ok (a : A)
| Raise (e : exn).
Arguments Ok {A} a.
Arguments Raise {A} e.

Definition rbind {A B} (r : result A) (k : A -> result B) : result B :=
  match r with Ok a => k a | Raise e => Raise e end.

Inductive pyval :=
| PyNone
| PyBool (b : bool)
| PyInt (n : Z)
| PyFloat (q : Q)
| PyStr (s : string)
| PyList (l : list pyval)
| PyDict (d : list (string * pyval)).

Definition pydict := list (string * pyval).

(** [d[k]] on the items of a dict (the first item with the key). *)
Fixpoint dict_get (d : pydict) (k : string) : option pyval :=
  match d with
  | [] => None
  | (k', v) :: d' => if String.eqb k' k then Some v else dict_get d' k
  end.

(** [needle in hay] for two [str]: substring test. *)
Fixpoint substring_of (needle hay : string) : bool :=
  if String.prefix needle hay then true
  else match hay with
       | EmptyString => false
       | String _ hay' => substring_of needle hay'
       end.

(** [x == s] where [s] is a [str] literal. *)
Definition eq_str (x : pyval) (s : string) : bool :=
  match x with PyStr s' => String.eqb s' s | _ => false end.

(** [k in v] for a [str] key [k]. *)
Definition contains (k : string) (v : pyval) : result bool :=
  match v with
  | PyDict d => Ok (match dict_get d k with Some _ => true | None => false end)
  | PyList l => Ok (existsb (fun x => eq_str x k) l)
  | PyStr s => Ok (substring_of k s)
  | _ => Raise (Exn TypeError "argument is not iterable")
  end.

(** [v[k]] for a [str] key [k]. *)
Definition getitem (v : pyval) (k : string) : result pyval :=
  match v with
  | PyDict d => match dict_get d k with
                | Some x => Ok x
                | None => Raise (Exn KeyError ("'" ++ k ++ "'"))
                end
  | PyList _ => Raise (Exn TypeError "list indices must be integers or slices, not str")
  | PyStr _ => Raise (Exn TypeError "string indices must be integers")
  | _ => Raise (Exn TypeError "object is not subscriptable")
  end.

(** [v.get(k)]: only a dict has the method; an absent key gives [None]. *)
Definition get (v : pyval) (k : string) : result pyval :=
  match v with
  | PyDict d => Ok (match dict_get d k with Some x => x | None => PyNone end)
  | _ => Raise (Exn AttributeError "object has no attribute 'get'")
  end.

Fixpoint chars (s : string) : list pyval :=
  match s with
  | EmptyString => []
  | String c s' => PyStr (String c EmptyString) :: chars s'
  end.

(** The items [for m in v] goes through. *)
Definition iter (v : pyval) : result (list pyval) :=
  match v with
  | PyList l => Ok l
  | PyDict d => Ok (map (fun kv => PyStr (fst kv)) d)
  | PyStr s => Ok (chars s)
  | _ => Raise (Exn TypeError "object is not iterable")
  end.

(** [any(p(m) for m in items)]: stops at the first true item; an
    exception raised by [p] before that escapes. *)
Fixpoint any (p : pyval -> result bool) (items : list pyval) : result bool :=
  match items with
  | [] => Ok false
  | m :: rest =>
      match p m with
      | Ok true => Ok true
      | Ok false => any p rest
      | Raise e => Raise e
      end
  end.

End Py.
Import Py.

Notation "x <- r ;; k" := (rbind r (fun x => k))
  (at level 100, r at next level, right associativity, only parsing).

(** ** Data model *)

Inductive role := user | assistant.

(** A message of the transcript: the dict [{"role": ..., "content": ...}].
    The content of a user message is the prompt, a [str]; the content of an
    assistant message is whatever [response['message']['content']] held. *)
Record message := Message { msg_role : role; msg_content : pyval }.

(** [st.session_state.params]: the dict is created with these four keys by
    [initialize_session] and only these keys are ever assigned, so it is a
    record.  The three floats are the rationals their literals denote; the
    script only stores and compares them. *)
Record gen_params := GenParams {
  temperature : Q;
  top_p : Q;
  num_predict : Z;
  repeat_penalty : Q
}.

(** [st.session_state] as the script finds it when a run starts: each of
    the two entries is there or not. *)
Record session_state := SessionState {
  ss_messages : option (list message);
  ss_params : option gen_params
}.

Definition fresh_session : session_state := SessionState None None.

(** What the run has emitted: page elements and calls to the chat client,
    oldest first. *)
Inductive event :=
| UiChatMessage (r : role) (body : pyval)
| UiErrorBox (detail : string)
| CallChat (model : string) (msgs : list message) (options : gen_params).

(** The state phase 3 of a run works on: the two session entries, both
    present once [initialize_session] has run, and the trace. *)
Record world := World {
  messages : list message;
  params : gen_params;
  trace : list event
}.

(** What the outside answers during one run of the script. *)
Record env := Env {
  ollama_list : result pyval;
  ollama_chat : string -> list message -> gen_params -> result pyval;
  slider_float : string -> Q -> Q -> Q -> Q;
  slider_int : string -> Z -> Z -> Z -> Z -> Z;
  button : string -> bool;
  chat_input : string -> option string
}.

Definition required_model : string := "deepseek-r1:1.5b".

(** ** Statements that read and write the state, and may raise *)

Definition M (A : Type) : Type := world -> result A * world.

Definition ret {A} (a : A) : M A := fun w => (Ok a, w).

Definition bind {A B} (c : M A) (k : A -> M B) : M B :=
  fun w => match c w with
           | (Ok a, w') => k a w'
           | (Raise e, w') => (Raise e, w')
           end.

Definition lift {A} (r : result A) : M A := fun w => (r, w).

Definition raise {A} (e : exn) : M A := lift (Raise e).

Declare Scope stmt_scope.
Delimit Scope stmt_scope with stmt.
Notation "x <~ c ;; k" := (bind c (fun x => k))
  (at level 100, c at next level, right associativity) : stmt_scope.
Notation "c ;;; k" := (bind c (fun _ => k))
  (at level 100, right associativity) : stmt_scope.

(** [try: body except Exception as e: handler(e)].  What the body did to
    the state before it raised stays done. *)
Definition try_except_Exception {A} (body : M A) (handler : exn -> M A) : M A :=
  fun w => match body w with
           | (Raise e, w') =>
               if is_Exception e then handler e w' else (Raise e, w')
           | done => done
           end.

Definition emit (ev : event) : M unit :=
  fun w => (Ok tt, World (messages w) (params w) (trace w ++ [ev])).

(** [st.session_state.messages.append(m)] *)
Definition append_message (m : message) : M unit :=
  fun w => (Ok tt, World (messages w ++ [m]) (params w) (trace w)).

(** [st.session_state.messages.pop()] *)
Definition pop_message : M unit :=
  fun w => match messages w with
           | [] => (Raise (Exn IndexError "pop from empty list"), w)
           | _ :: _ => (Ok tt, World (removelast (messages w)) (params w) (trace w))
           end.

(** ** [initialize_session] (main.py, lines 73-90) *)

Definition initial_greeting : message :=
  Message assistant (PyStr "How can I help you today? 🚀").

Definition default_params : gen_params :=
  GenParams (7 # 10) (9 # 10) 512 (11 # 10).

(** Each entry is set only when it is not in the session state yet.  The
    result is the state the rest of the run works on, with an empty
    trace. *)
Definition initialize_session (ss : session_state) : world :=
  World (match ss_messages ss with
         | Some l => l
         | None => [initial_greeting]
         end)
        (match ss_params ss with
         | Some p => p
         | None => default_params
         end)
        [].

(** The session state a run leaves behind for the next one. *)
Definition save (w : world) : session_state :=
  SessionState (Some (messages w)) (Some (params w)).

(** ** [settings_sidebar] (main.py, lines 92-130) *)

(** The four slider statements: each assigns one key of the params dict
    the value [st.slider] returns for the bounds and the current value. *)
Definition temperature_control (e : env) (w : world) : world :=
  let p := params w in
  World (messages w)
        (GenParams (slider_float e "Temperature (Creativity)" 0 1 (temperature p))
                   (top_p p) (num_predict p) (repeat_penalty p))
        (trace w).

Definition top_p_control (e : env) (w : world) : world :=
  let p := params w in
  World (messages w)
        (GenParams (temperature p)
                   (slider_float e "Top-P Sampling" (1 # 10) 1 (top_p p))
                   (num_predict p) (repeat_penalty p))
        (trace w).

Definition num_predict_control (e : env) (w : world) : world :=
  let p := params w in
  World (messages w)
        (GenParams (temperature p) (top_p p)
                   (slider_int e "Max Response Length" 128 2048 (num_predict p) 128)
                   (repeat_penalty p))
        (trace w).

Definition repeat_penalty_control (e : env) (w : world) : world :=
  let p := params w in
  World (messages w)
        (GenParams (temperature p) (top_p p) (num_predict p)
                   (slider_float e "Repeat Penalty" 1 2 (repeat_penalty p)))
        (trace w).

Definition reset_greeting : message :=
  Message assistant (PyStr "How can I help you with coding today? 🚀").

(** The body of the clear-history button: the assignment of lines 127-129. *)
Definition clear_history (w : world) : world :=
  World [reset_greeting] (params w) (trace w).

(** The second component tells whether [st.rerun()] was called: it ends
    the run there. *)
Definition settings_sidebar (e : env) (w : world) : world * bool :=
  let w1 := temperature_control e w in
  let w2 := top_p_control e w1 in
  let w3 := num_predict_control e w2 in
  let w4 := repeat_penalty_control e w3 in
  if button e "🧹 Clear Chat History" then (clear_history w4, true)
  else (w4, false).

(** ** [display_chat] (main.py, lines 132-136) *)

Definition display_chat (w : world) : world :=
  World (messages w) (params w)
        (trace w ++ map (fun m => UiChatMessage (msg_role m) (msg_content m)) (messages w)).

(** ** [handle_query] (main.py, lines 138-187) *)

Definition invalid_format : exn :=
  Exn ValueError "Invalid response format from Ollama API".

(** Line 166: the test of the [if].  [or] evaluates its second operand
    only when the first is false. *)
Definition response_malformed (response : pyval) : result bool :=
  has_message <- contains "message" response ;;
  if negb has_message then Ok true
  else (inner <- getitem response "message" ;;
        has_content <- contains "content" inner ;;
        Ok (negb has_content)).

(** Lines 166-169: the check of the response and the extraction of the
    reply. *)
Definition extract_reply (response : pyval) : result pyval :=
  malformed <- response_malformed response ;;
  if malformed : bool then Raise invalid_format
  else (inner <- getitem response "message" ;;
        getitem inner "content").

(** Lines 153-163: the call is made with the transcript as it is now, the
    tentative user message included, and the current parameters. *)
Definition call_chat (e : env) : M pyval :=
  fun w =>
    (ollama_chat e required_model (messages w) (params w),
     World (messages w) (params w)
           (trace w ++ [CallChat required_model (messages w) (params w)])).

Open Scope stmt_scope.

(** The body of the [try] (lines 142-175). *)
Definition turn (e : env) (prompt : string) : M unit :=
  append_message (Message user (PyStr prompt)) ;;;
  emit (UiChatMessage user (PyStr prompt)) ;;;
  response <~ call_chat e ;;
  reply <~ lift (extract_reply response) ;;
  emit (UiChatMessage assistant reply) ;;;
  append_message (Message assistant reply).

(** The handler (lines 177-187). *)
Definition rollback (ex : exn) : M unit :=
  emit (UiErrorBox (str ex)) ;;;
  pop_message.

(** A [str] is true when it is not empty. *)
Definition truthy (s : string) : bool :=
  match s with EmptyString => false | String _ _ => true end.

Definition handle_query (e : env) : M unit :=
  match chat_input e "Enter your coding question..." with
  | Some prompt =>
      if truthy prompt then try_except_Exception (turn e prompt) rollback
      else ret tt
  | None => ret tt
  end.

Close Scope stmt_scope.

(** ** The startup checks of [main] (main.py, lines 194-249) *)

Inductive verdict :=
| Ready
| ServerUnreachable (detail : string)
| ProtocolMismatch (detail : string)
| ModelMissing (model : string).

(** How the two checking phases end: with a verdict, or with an exception
    no handler of [main] catches. *)
Inductive startup :=
| Verdict (v : verdict)
| Uncaught (ex : exn).

(** Lines 229-230, for one item [m] of the list. *)
Definition entry_matches (m : pyval) : result bool :=
  by_model <- Py.get m "model" ;;
  if eq_str by_model required_model then Ok true
  else (by_name <- Py.get m "name" ;;
        Ok (eq_str by_name required_model)).

(** The body of the second [try] (lines 216-245): [Some v] when it halts
    with [v], [None] when it falls through to phase 3. *)
Definition verify_model (server_status : pyval) : result (option verdict) :=
  has_models <- contains "models" server_status ;;
  if negb has_models then Ok (Some (ProtocolMismatch "Unexpected Response Format"))
  else (models <- getitem server_status "models" ;;
        items <- iter models ;;
        model_found <- any entry_matches items ;;
        if negb model_found then Ok (Some (ModelMissing required_model))
        else Ok None).

Definition availability (listing : result pyval) : startup :=
  match listing with
  | Raise ex =>
      if is_ClientError ex then Verdict (ServerUnreachable (str ex))
      else if is_Exception ex
           then Verdict (ServerUnreachable ("Unexpected connection error: " ++ str ex))
           else Uncaught ex
  | Ok server_status =>
      match verify_model server_status with
      | Ok (Some v) => Verdict v
      | Ok None => Verdict Ready
      | Raise ex =>
          if is_KeyError ex
          then Verdict (ProtocolMismatch
                          ("Missing expected field in server response: " ++ str ex))
          else Uncaught ex
      end
  end.

(** ** One run of the script: [main] (main.py, lines 189-255) *)

Inductive run_end :=
| Halted (v : verdict)
| Crashed (ex : exn)
| Rerun
| Finished.

Record run := Run {
  left_state : session_state;
  page : list event;
  ending : run_end
}.

Definition main (e : env) (ss : session_state) : run :=
  match availability (ollama_list e) with
  | Verdict Ready =>
      let w0 := initialize_session ss in
      match settings_sidebar e w0 with
      | (w1, true) => Run (save w1) (trace w1) Rerun
      | (w1, false) =>
          match handle_query e (display_chat w1) with
          | (Ok _, w2) => Run (save w2) (trace w2) Finished
          | (Raise ex, w2) => Run (save w2) (trace w2) (Crashed ex)
          end
      end
  | Verdict v => Run ss [] (Halted v)
  | Uncaught ex => Run ss [] (Crashed ex)
  end.

(** ** [validate_model_available] (utils.py) *)

(** [ollama_show] is the probe [ollama.show(model_name)], the lookup of the
    name [ollama] included.  The bare [except:] catches every exception,
    those outside [Exception] too. *)
Definition validate_model_available
    (ollama_show : string -> result pyval) (model_name : string) : bool :=
  match ollama_show model_name with
  | Ok _ => true
  | Raise _ => false
  end.

(** * Vocabulary of the properties *)

(** ** One turn *)

(** The label of the chat input, which names the widget. *)
Definition prompt_label : string := "Enter your coding question...".

(** The transcript the chat client is called with. *)
Definition tentative (w : world) (prompt : string) : list message :=
  messages w ++ [Message user (PyStr prompt)].

(** The trace once the call has been made. *)
Definition called (w : world) (prompt : string) : list event :=
  (trace w ++ [UiChatMessage user (PyStr prompt)])
    ++ [CallChat required_model (tentative w prompt) (params w)].

(** What the server call and the inspection of its response give. *)
Definition round_trip (e : env) (w : world) (prompt : string) : result pyval :=
  response <- ollama_chat e required_model (tentative w prompt) (params w) ;;
  extract_reply response.

(** ** Sample answers of the server and sample environments *)

Definition listing_with_model : pyval :=
  PyDict [("models", PyList [PyDict [("name", PyStr "deepseek-r1:1.5b")]])].

Definition reply_hi : pyval :=
  PyDict [("message", PyDict [("role", PyStr "assistant"); ("content", PyStr "hi")])].

Definition reply_without_content : pyval :=
  PyDict [("message", PyDict [("role", PyStr "assistant")])].

(** Sliders left where they are, the clear button not pressed. *)
Definition idle_env (chat : result pyval) (input : option string) : env :=
  Env (Ok listing_with_model)
      (fun _ _ _ => chat)
      (fun _ _ _ v => v)
      (fun _ _ _ v _ => v)
      (fun _ => false)
      (fun _ => input).

(** The state of a session that has just been initialized. *)
Definition seeded_world : world := initialize_session fresh_session.

Definition connection_refused : exn := Exn OtherException "connection refused".

(** The response has no [message] entry, or its [message] has no [content]
    entry. *)
Definition lacks_content (response : pyval) : Prop :=
  exists d, response = PyDict d /\
    (dict_get d "message" = None \/
     exists m, dict_get d "message" = Some (PyDict m) /\ dict_get m "content" = None).

(** ** Blank input *)

(** Space, tab, line feed, vertical tab, form feed, carriage return. *)
Definition is_space (c : ascii) : bool :=
  match nat_of_ascii c with
  | 32 | 9 | 10 | 11 | 12 | 13 => true
  | _ => false
  end.

(** The string is empty or made of whitespace only. *)
Fixpoint whitespace_only (s : string) : bool :=
  match s with
  | EmptyString => true
  | String c s' => is_space c && whitespace_only s'
  end.

(** ** Listings *)

(** The [model] entry or the [name] entry of the item is the required
    string. *)
Definition names_required (m : pydict) : Prop :=
  dict_get m "model" = Some (PyStr required_model) \/
  dict_get m "name" = Some (PyStr required_model).

(** The same as a test, the way lines 229-230 compute it on a dict. *)
Definition names_requiredb (m : pydict) : bool :=
  eq_str (match dict_get m "model" with Some x => x | None => PyNone end) required_model
  || eq_str (match dict_get m "name" with Some x => x | None => PyNone end) required_model.


(** ** Sliders and ranges *)

(** What Streamlit's slider widget promises: the value it returns lies
    between the two bounds it was created with. *)
Definition slider_contract (e : env) : Prop :=
  (forall label lo hi v,
     (lo <= hi)%Q ->
     (lo <= slider_float e label lo hi v)%Q /\ (slider_float e label lo hi v <= hi)%Q) /\
  (forall label lo hi v step,
     (lo <= hi)%Z ->
     (lo <= slider_int e label lo hi v step <= hi)%Z).

(** The ranges of the four parameters. *)
Definition temperature_ok (p : gen_params) : Prop :=
  (0 <= temperature p)%Q /\ (temperature p <= 1)%Q.
Definition top_p_ok (p : gen_params) : Prop :=
  (1 # 10 <= top_p p)%Q /\ (top_p p <= 1)%Q.
Definition num_predict_ok (p : gen_params) : Prop :=
  (128 <= num_predict p <= 2048)%Z.
Definition repeat_penalty_ok (p : gen_params) : Prop :=
  (1 <= repeat_penalty p)%Q /\ (repeat_penalty p <= 2)%Q.

Definition in_documented_ranges (p : gen_params) : Prop :=
  temperature_ok p /\ top_p_ok p /\ num_predict_ok p /\ repeat_penalty_ok p.

(** A slider that moves an out-of-range position to the nearest bound. *)
Definition clampQ (lo hi v : Q) : Q :=
  if Qle_bool v lo then lo else if Qle_bool hi v then hi else v.

Definition clampZ (lo hi v : Z) : Z := Z.max lo (Z.min hi v).

Definition clamping_env (position : Q) (length_position : Z) : env :=
  Env (Ok listing_with_model)
      (fun _ _ _ => Ok reply_hi)
      (fun _ lo hi _ => clampQ lo hi position)
      (fun _ lo hi _ _ => clampZ lo hi length_position)
      (fun _ => false)
      (fun _ => None).



(** ** Transcripts *)

(** The transcript is not empty and its first message is the
    assistant's. *)
Definition seeded (l : list message) : Prop :=
  exists first rest, l = first :: rest /\ msg_role first = assistant.

(** The session states the script can leave behind: those reached from the
    empty session state by runs of [main], each in an environment of its
    own. *)
Inductive reachable : session_state -> Prop :=
| reach_fresh : reachable fresh_session
| reach_run (e : env) (ss : session_state) :
    reachable ss -> reachable (left_state (main e ss)).

Definition session_seeded (ss : session_state) : Prop :=
  forall l, ss_messages ss = Some l -> seeded l.

(** * Properties *)

(** ** The statements of one turn *)

Lemma turn_run (e : env) (prompt : string) (w : world) :
  turn e prompt w =
  match round_trip e w prompt with
  | Ok reply =>
      (Ok tt,
       World (tentative w prompt ++ [Message assistant reply]) (params w)
             (called w prompt ++ [UiChatMessage assistant reply]))
  | Raise ex =>
      (Raise ex, World (tentative w prompt) (params w) (called w prompt))
  end.
Proof.
  unfold turn, round_trip, bind, append_message, emit, call_chat, lift,
    called, tentative; cbn.
  destruct (ollama_chat e required_model _ (params w)) as [response | ex]; cbn.
  - destruct (extract_reply response) as [reply | ex]; reflexivity.
  - reflexivity.
Qed.

Lemma removelast_snoc {A} (l : list A) (x : A) : removelast (l ++ [x]) = l.
Proof.
  induction l as [| a l IH]; cbn; [reflexivity |].
  destruct (l ++ [x])%list eqn:E.
  - destruct l; discriminate.
  - rewrite IH. reflexivity.
Qed.

Lemma pop_after_append (l : list message) (m : message) p t :
  pop_message (World (l ++ [m]) p t) = (Ok tt, World l p t).
Proof.
  unfold pop_message; cbn.
  destruct (l ++ [m])%list eqn:E.
  - destruct l; discriminate.
  - rewrite <- E, removelast_snoc. reflexivity.
Qed.

(** A non-empty prompt runs the [try] statement. *)
Lemma handle_query_prompt (e : env) (prompt : string) (w : world) :
  chat_input e prompt_label = Some prompt ->
  truthy prompt = true ->
  handle_query e w = try_except_Exception (turn e prompt) rollback w.
Proof.
  intros Hin Ht. unfold handle_query. fold prompt_label.
  rewrite Hin, Ht. reflexivity.
Qed.

(** The whole of [handle_query] on a non-empty prompt, by the outcome of
    the round trip. *)
Lemma handle_query_run (e : env) (prompt : string) (w : world) :
  chat_input e prompt_label = Some prompt ->
  truthy prompt = true ->
  handle_query e w =
  match round_trip e w prompt with
  | Ok reply =>
      (Ok tt,
       World (tentative w prompt ++ [Message assistant reply]) (params w)
             (called w prompt ++ [UiChatMessage assistant reply]))
  | Raise ex =>
      if is_Exception ex
      then (Ok tt,
            World (messages w) (params w) (called w prompt ++ [UiErrorBox (str ex)]))
      else (Raise ex, World (tentative w prompt) (params w) (called w prompt))
  end.
Proof.
  intros Hin Ht. rewrite (handle_query_prompt e prompt w Hin Ht).
  unfold try_except_Exception. rewrite turn_run.
  destruct (round_trip e w prompt) as [reply | ex]; [reflexivity |].
  destruct (is_Exception ex); [| reflexivity].
  unfold rollback, bind, emit; cbn.
  unfold tentative. apply pop_after_append.
Qed.

(** The responses [extract_reply] accepts: a dict whose [message] is a dict
    with a [content]. *)
Lemma extract_reply_ok (response reply : pyval) :
  extract_reply response = Ok reply <->
  exists d m, response = PyDict d /\ dict_get d "message" = Some (PyDict m)
              /\ dict_get m "content" = Some reply.
Proof.
  unfold extract_reply, response_malformed. split.
  - destruct response as [| b | n | q | s | l | d]; try discriminate; cbn.
    + destruct (substring_of "message" s); cbn; discriminate.
    + destruct (existsb _ l); cbn; discriminate.
    + destruct (dict_get d "message") as [inner |] eqn:Hm; cbn; [| discriminate].
      destruct inner as [| b | n | q | s | l | m]; try discriminate; cbn.
      * destruct (substring_of "content" s); cbn; discriminate.
      * destruct (existsb _ l); cbn; discriminate.
      * destruct (dict_get m "content") as [c |] eqn:Hc; cbn; [| discriminate].
        intros H; injection H as <-. exists d, m. auto.
  - intros (d & m & -> & Hm & Hc). cbn. rewrite Hm. cbn. rewrite Hc. cbn.
    reflexivity.
Qed.

(** Every other response is refused with an exception [except Exception]
    catches. *)
Lemma extract_reply_raises (response : pyval) (ex : exn) :
  extract_reply response = Raise ex -> is_Exception ex = true.
Proof.
  unfold extract_reply, response_malformed.
  destruct response as [| b | n | q | s | l | d]; cbn;
    try (intros H; injection H as <-; reflexivity).
  - destruct (substring_of "message" s); cbn; intros H; injection H as <-; reflexivity.
  - destruct (existsb _ l); cbn; intros H; injection H as <-; reflexivity.
  - destruct (dict_get d "message") as [inner |]; cbn;
      [| intros H; injection H as <-; reflexivity].
    destruct inner as [| b | n | q | s | l | m]; cbn;
      try (intros H; injection H as <-; reflexivity).
    + destruct (substring_of "content" s); cbn; intros H; injection H as <-; reflexivity.
    + destruct (existsb _ l); cbn; intros H; injection H as <-; reflexivity.
    + destruct (dict_get m "content"); cbn; [discriminate |].
      intros H; injection H as <-; reflexivity.
Qed.

(** ** Failed turns *)

(** C1.  When the body of the [try] of [handle_query] raises an exception
    [except Exception] catches -- the chat call failed, or the response was
    refused -- the only change the body had made to the transcript is the
    tentative user message at its end, and the handler removes exactly that
    last entry: the transcript after the turn is the transcript before it,
    the parameters are untouched and the failure is shown in the error
    box. *)
Theorem failed_turn_restores_transcript
    (e : env) (w w1 : world) (prompt : string) (ex : exn) :
  chat_input e prompt_label = Some prompt ->
  truthy prompt = true ->
  turn e prompt w = (Raise ex, w1) ->
  is_Exception ex = true ->
  messages w1 = (messages w ++ [Message user (PyStr prompt)])%list /\
  exists w2,
    handle_query e w = (Ok tt, w2) /\
    messages w2 = removelast (messages w1) /\
    messages w2 = messages w /\
    params w2 = params w /\
    trace w2 = (trace w1 ++ [UiErrorBox (str ex)])%list.
Proof.
  intros Hin Ht Hturn Hex.
  rewrite (handle_query_run e prompt w Hin Ht).
  rewrite turn_run in Hturn.
  destruct (round_trip e w prompt) as [reply | ex']; [discriminate |].
  injection Hturn as -> <-. rewrite Hex. cbn. split; [reflexivity |].
  eexists. split; [reflexivity |]. cbn.
  unfold tentative. rewrite removelast_snoc. auto.
Qed.

Lemma failed_turn_restores_transcript_witness :
  let e := idle_env (Raise connection_refused) (Some "hello") in
  exists w2,
    handle_query e seeded_world = (Ok tt, w2) /\
    messages w2 = messages seeded_world.
Proof.
  intros e.
  destruct (failed_turn_restores_transcript e seeded_world
              (World (tentative seeded_world "hello") (params seeded_world)
                     (called seeded_world "hello"))
              "hello" connection_refused)
    as (_ & w2 & H & _ & Hm & _); try reflexivity.
  exists w2. split; assumption.
Defined.

(** An exception outside [Exception] (an interrupt during the call) is not
    caught: it leaves [handle_query] and the tentative message stays. *)
Lemma interrupt_is_not_rolled_back (e : env) (w : world) (prompt : string) (ex : exn) :
  chat_input e prompt_label = Some prompt ->
  truthy prompt = true ->
  round_trip e w prompt = Raise ex ->
  is_Exception ex = false ->
  handle_query e w
  = (Raise ex, World (tentative w prompt) (params w) (called w prompt)).
Proof.
  intros Hin Ht Hr Hex.
  rewrite (handle_query_run e prompt w Hin Ht), Hr, Hex. reflexivity.
Qed.

(** ** Successful turns *)

(** C2.  When the chat call returns a response from which a reply is
    extracted, the transcript grows by exactly two entries: the user message
    with the submitted text, then the assistant message with the extracted
    reply; the entries that were there are unchanged, and so are the
    parameters. *)
Theorem successful_turn_appends_two
    (e : env) (w : world) (prompt : string) (response reply : pyval) :
  chat_input e prompt_label = Some prompt ->
  truthy prompt = true ->
  ollama_chat e required_model (tentative w prompt) (params w) = Ok response ->
  extract_reply response = Ok reply ->
  exists w2,
    handle_query e w = (Ok tt, w2) /\
    messages w2
      = (messages w ++ [Message user (PyStr prompt); Message assistant reply])%list /\
    length (messages w2) = length (messages w) + 2 /\
    firstn (length (messages w)) (messages w2) = messages w /\
    params w2 = params w /\
    (exists d m, response = PyDict d /\ dict_get d "message" = Some (PyDict m)
                 /\ dict_get m "content" = Some reply).
Proof.
  intros Hin Ht Hchat Hreply.
  rewrite (handle_query_run e prompt w Hin Ht).
  unfold round_trip. rewrite Hchat. cbn. rewrite Hreply.
  eexists. split; [reflexivity |]. cbn. unfold tentative.
  rewrite <- app_assoc. cbn.
  repeat split.
  - rewrite length_app. reflexivity.
  - rewrite firstn_app, Nat.sub_diag, firstn_all. cbn. apply app_nil_r.
  - apply extract_reply_ok. assumption.
Qed.

Lemma successful_turn_appends_two_witness :
  exists w2,
    handle_query (idle_env (Ok reply_hi) (Some "hello")) seeded_world = (Ok tt, w2) /\
    messages w2
      = [initial_greeting; Message user (PyStr "hello"); Message assistant (PyStr "hi")].
Proof.
  destruct (successful_turn_appends_two
              (idle_env (Ok reply_hi) (Some "hello")) seeded_world
              "hello" reply_hi (PyStr "hi"))
    as (w2 & H & Hm & _); try reflexivity.
  exists w2. split; assumption.
Defined.

(** ** Malformed responses *)

(** C6.  A response that lacks [message] or [message.content] is refused
    with the [ValueError] "Invalid response format from Ollama API"; the
    turn ends in the error box with that text, no assistant message is
    stored in place of the missing content, and the transcript is the one
    before the turn. *)
Theorem malformed_response_is_turn_error
    (e : env) (w : world) (prompt : string) (response : pyval) :
  chat_input e prompt_label = Some prompt ->
  truthy prompt = true ->
  ollama_chat e required_model (tentative w prompt) (params w) = Ok response ->
  lacks_content response ->
  extract_reply response = Raise invalid_format /\
  turn e prompt w
    = (Raise invalid_format, World (tentative w prompt) (params w) (called w prompt)) /\
  handle_query e w
    = (Ok tt,
       World (messages w) (params w)
             (called w prompt
                ++ [UiErrorBox "Invalid response format from Ollama API"])).
Proof.
  intros Hin Ht Hchat (d & -> & Hlack).
  assert (Hx : extract_reply (PyDict d) = Raise invalid_format).
  { unfold extract_reply, response_malformed; cbn.
    destruct Hlack as [Hm | (m & Hm & Hc)]; rewrite Hm; cbn; [reflexivity |].
    rewrite Hc. reflexivity. }
  split; [assumption |].
  rewrite (handle_query_run e prompt w Hin Ht), turn_run.
  unfold round_trip. rewrite Hchat. cbn. rewrite Hx. cbn. split; reflexivity.
Qed.

Lemma malformed_response_is_turn_error_witness :
  messages (snd (handle_query (idle_env (Ok reply_without_content) (Some "hello"))
                              seeded_world))
  = messages seeded_world.
Proof.
  destruct (malformed_response_is_turn_error
              (idle_env (Ok reply_without_content) (Some "hello")) seeded_world
              "hello" reply_without_content)
    as (_ & _ & H).
  - reflexivity.
  - reflexivity.
  - reflexivity.
  - exists [("message", PyDict [("role", PyStr "assistant")])].
    split; [reflexivity |]. right.
    exists [("role", PyStr "assistant")]. split; reflexivity.
  - rewrite H. reflexivity.
Defined.

(** ** Empty and blank input *)

(** C3, as stated, fails on a prompt made of one space: [handle_query]
    tests the prompt for truth only, a non-empty [str] is true, and the
    turn runs -- the chat client is called and the transcript grows. *)
Lemma blank_prompt_runs_a_turn :
  let e := idle_env (Ok reply_hi) (Some " ") in
  whitespace_only " " = true /\
  chat_input e prompt_label = Some " " /\
  handle_query e seeded_world <> (Ok tt, seeded_world) /\
  messages (snd (handle_query e seeded_world))
    = [initial_greeting; Message user (PyStr " "); Message assistant (PyStr "hi")] /\
  In (CallChat required_model [initial_greeting; Message user (PyStr " ")] default_params)
     (trace (snd (handle_query e seeded_world))).
Proof.
  cbv zeta. repeat split.
  - intros H. discriminate H.
  - cbn. right. left. reflexivity.
Qed.

(** C3, amended.  When no prompt was submitted, or the prompt is the empty
    string, [handle_query] does nothing: the transcript, the parameters and
    the trace are those it was given, so no chat client call is made.  Every
    other prompt, one made of whitespace included, starts a turn: the chat
    client is called with the transcript extended by that prompt. *)
Theorem empty_input_is_ignored (e : env) (w : world) :
  (chat_input e prompt_label = None \/ chat_input e prompt_label = Some "" ->
   handle_query e w = (Ok tt, w)) /\
  (forall prompt,
     chat_input e prompt_label = Some prompt -> prompt <> "" ->
     In (CallChat required_model (tentative w prompt) (params w))
        (trace (snd (handle_query e w)))).
Proof.
  split.
  - intros [H | H]; unfold handle_query; fold prompt_label; rewrite H; reflexivity.
  - intros prompt Hin Hne.
    assert (Ht : truthy prompt = true) by (destruct prompt; [congruence | reflexivity]).
    rewrite (handle_query_run e prompt w Hin Ht).
    assert (Hc : In (CallChat required_model (tentative w prompt) (params w))
                    (called w prompt)).
    { unfold called. apply in_or_app. right. left. reflexivity. }
    destruct (round_trip e w prompt) as [reply | ex]; cbn.
    + apply in_or_app. left. exact Hc.
    + destruct (is_Exception ex); cbn; [apply in_or_app; left |]; exact Hc.
Qed.

Lemma empty_input_is_ignored_witness :
  handle_query (idle_env (Ok reply_hi) (Some "")) seeded_world = (Ok tt, seeded_world) /\
  In (CallChat required_model (tentative seeded_world "   ") (params seeded_world))
     (trace (snd (handle_query (idle_env (Ok reply_hi) (Some "   ")) seeded_world))).
Proof.
  split.
  - apply (proj1 (empty_input_is_ignored (idle_env (Ok reply_hi) (Some "")) seeded_world)).
    right. reflexivity.
  - apply (proj2 (empty_input_is_ignored (idle_env (Ok reply_hi) (Some "   "))
                    seeded_world) "   ").
    + reflexivity.
    + discriminate.
Defined.

(** ** The model check *)

Lemma eq_str_get (m : pydict) (k s : string) :
  eq_str (match dict_get m k with Some x => x | None => PyNone end) s = true
  <-> dict_get m k = Some (PyStr s).
Proof.
  destruct (dict_get m k) as [x |]; cbn.
  - destruct x; cbn; try (split; [discriminate | intros H; discriminate H]).
    rewrite String.eqb_eq. split; [intros -> | intros H; injection H as ->]; reflexivity.
  - split; discriminate.
Qed.

Lemma names_requiredb_spec (m : pydict) :
  names_requiredb m = true <-> names_required m.
Proof.
  unfold names_requiredb, names_required.
  rewrite orb_true_iff, !eq_str_get. reflexivity.
Qed.

Lemma entry_matches_dict (m : pydict) :
  entry_matches (PyDict m) = Ok (names_requiredb m).
Proof.
  unfold entry_matches, names_requiredb; cbn.
  destruct (eq_str _ required_model); reflexivity.
Qed.

Lemma any_entry_matches (entries : list pydict) :
  any entry_matches (map PyDict entries) = Ok (existsb names_requiredb entries).
Proof.
  induction entries as [| m entries IH]; cbn - [entry_matches]; [reflexivity |].
  rewrite entry_matches_dict.
  destruct (names_requiredb m); cbn; [reflexivity | exact IH].
Qed.

Lemma existsb_names_required (entries : list pydict) :
  existsb names_requiredb entries = true <-> Exists names_required entries.
Proof.
  rewrite existsb_exists, Exists_exists.
  split; intros (m & Hin & H); exists m; split; auto; apply names_requiredb_spec; exact H.
Qed.

(** The verdict on a listing whose [models] entry is a list of dicts. *)
Lemma availability_of_models (d : pydict) (entries : list pydict) :
  dict_get d "models" = Some (PyList (map PyDict entries)) ->
  availability (Ok (PyDict d))
  = Verdict (if existsb names_requiredb entries then Ready
             else ModelMissing required_model).
Proof.
  intros H. unfold availability, verify_model; cbn. rewrite H; cbn.
  rewrite any_entry_matches; cbn.
  destruct (existsb names_requiredb entries); reflexivity.
Qed.

(** C4.  For a listing whose [models] entry is a list of items, the check
    ends with [Ready] exactly when some item has the string
    "deepseek-r1:1.5b" as its [model] entry or as its [name] entry, and with
    [ModelMissing] otherwise; the comparison is exact, so another spelling
    of the name does not match.  The listing [[{model: "llama2"}]] gives
    [ModelMissing], the listing [[{name: "deepseek-r1:1.5b"}]] gives
    [Ready]. *)
Theorem model_check_matches_either_field :
  (forall (d : pydict) (entries : list pydict),
     dict_get d "models" = Some (PyList (map PyDict entries)) ->
     (availability (Ok (PyDict d)) = Verdict Ready
      <-> Exists names_required entries) /\
     (availability (Ok (PyDict d)) = Verdict (ModelMissing required_model)
      <-> ~ Exists names_required entries)) /\
  availability (Ok (PyDict [("models", PyList [PyDict [("model", PyStr "llama2")]])]))
    = Verdict (ModelMissing "deepseek-r1:1.5b") /\
  availability (Ok (PyDict [("models", PyList [PyDict [("name", PyStr "deepseek-r1:1.5b")]])]))
    = Verdict Ready /\
  availability (Ok (PyDict [("models", PyList [PyDict [("model", PyStr "deepseek-r1:1.5b")]])]))
    = Verdict Ready /\
  availability (Ok (PyDict [("models", PyList [PyDict [("model", PyStr "DeepSeek-R1:1.5B")]])]))
    = Verdict (ModelMissing "deepseek-r1:1.5b").
Proof.
  split; [| repeat split].
  intros d entries H. rewrite (availability_of_models d entries H).
  rewrite <- existsb_names_required.
  destruct (existsb names_requiredb entries); split; split;
    congruence || discriminate || reflexivity.
Qed.

Lemma model_check_matches_either_field_witness :
  availability (Ok listing_with_model) = Verdict Ready.
Proof.
  apply (proj1 model_check_matches_either_field
           [("models", PyList [PyDict [("name", PyStr "deepseek-r1:1.5b")]])]
           [[("name", PyStr "deepseek-r1:1.5b")]]).
  - reflexivity.
  - apply Exists_cons_hd. right. reflexivity.
Defined.

(** ** The startup checks as a state machine *)



(** No step of [verify_model] raises a [KeyError]: the subscript of line 231
    is only reached after the membership test of line 216. *)
Lemma verify_model_no_KeyError (server_status : pyval) (ex : exn) :
  verify_model server_status = Raise ex -> is_KeyError ex = false.
Proof.
  assert (Hany : forall items ex', any entry_matches items = Raise ex' ->
                                   is_KeyError ex' = false).
  { induction items as [| m items IH]; cbn - [entry_matches]; [discriminate |].
    intros ex'. destruct (entry_matches m) as [[|] | e0] eqn:Hm.
    - discriminate.
    - apply IH.
    - intros H; injection H as <-.
      unfold entry_matches in Hm. destruct m; cbn in Hm;
        try (injection Hm as <-; reflexivity).
      destruct (eq_str _ required_model); discriminate. }
  unfold verify_model.
  destruct server_status as [| b | n | q | s | l | d]; cbn;
    try (intros H; injection H as <-; reflexivity).
  - destruct (substring_of "models" s); cbn; [| discriminate].
    intros H; injection H as <-; reflexivity.
  - destruct (existsb _ l); cbn; [| discriminate].
    intros H; injection H as <-; reflexivity.
  - destruct (dict_get d "models") as [models |]; cbn; [| discriminate].
    destruct (iter models) as [items | e0] eqn:Hit; cbn.
    + destruct (any entry_matches items) as [found | e1] eqn:Ha; cbn.
      * destruct found; discriminate.
      * intros H; injection H as <-. eapply Hany; eassumption.
    + intros H; injection H as <-.
      destruct models; cbn in Hit; try discriminate;
        injection Hit as <-; reflexivity.
Qed.


(** A [models] entry that is not a list of mappings is not handled by the
    [except KeyError] of phase 2: the exception leaves [main]. *)
Lemma models_entry_not_a_list_escapes :
  availability (Ok (PyDict [("models", PyNone)]))
    = Uncaught (Exn TypeError "object is not iterable") /\
  availability (Ok (PyDict [("models", PyList [PyStr "llama2"])]))
    = Uncaught (Exn AttributeError "object has no attribute 'get'").
Proof. split; reflexivity. Qed.

(** A run that does not get the verdict [Ready] stops before phase 3. *)
Lemma main_halts (e : env) (ss : session_state) :
  availability (ollama_list e) <> Verdict Ready ->
  left_state (main e ss) = ss /\ page (main e ss) = [] /\
  (forall v, availability (ollama_list e) = Verdict v -> main e ss = Run ss [] (Halted v)).
Proof.
  intros H. unfold main.
  destruct (availability (ollama_list e)) as [v | ex]; cbn.
  - destruct v; try congruence; repeat split; intros v' Hv; injection Hv as <-; reflexivity.
  - repeat split. discriminate.
Qed.



(** ** The parameter sliders *)

Lemma clampQ_in_bounds (lo hi v : Q) :
  (lo <= hi)%Q -> (lo <= clampQ lo hi v)%Q /\ (clampQ lo hi v <= hi)%Q.
Proof.
  intros H. unfold clampQ.
  destruct (Qle_bool v lo) eqn:E1.
  - split; [apply Qle_refl | exact H].
  - destruct (Qle_bool hi v) eqn:E2.
    + split; [exact H | apply Qle_refl].
    + split.
      * apply Qlt_le_weak, Qnot_le_lt. intros C.
        apply Qle_bool_iff in C. congruence.
      * apply Qlt_le_weak, Qnot_le_lt. intros C.
        apply Qle_bool_iff in C. congruence.
Qed.

Lemma clamping_env_contract (position : Q) (length_position : Z) :
  slider_contract (clamping_env position length_position).
Proof.
  split; cbn.
  - intros _ lo hi _. apply clampQ_in_bounds.
  - intros _ lo hi _ _ H. unfold clampZ. lia.
Qed.




(** ** Clearing the history *)

(** The greeting a reset seeds is not the text [initialize_session]
    seeds. *)
Lemma reset_greeting_is_not_initial : reset_greeting <> initial_greeting.
Proof. discriminate. Qed.

(** C8.  The clear-history assignment, from any state, leaves a transcript
    of exactly one message, the assistant greeting it seeds; the parameters
    and the trace are unchanged; doing it twice gives the state doing it
    once gives.  It is what [settings_sidebar] leaves as the transcript when
    the button is pressed, and the run is then restarted. *)
Theorem clear_history_resets_to_greeting :
  (forall w,
     messages (clear_history w) = [reset_greeting] /\
     length (messages (clear_history w)) = 1 /\
     Forall (fun m => msg_role m = assistant) (messages (clear_history w)) /\
     params (clear_history w) = params w /\
     trace (clear_history w) = trace w /\
     clear_history (clear_history w) = clear_history w) /\
  (forall e w,
     button e "🧹 Clear Chat History" = true ->
     messages (fst (settings_sidebar e w)) = [reset_greeting] /\
     snd (settings_sidebar e w) = true) /\
  (forall p t,
     clear_history (World [] p t) = World [reset_greeting] p t).
Proof.
  repeat apply conj.
  - intros w. cbn. repeat apply conj; try reflexivity.
    constructor; [reflexivity | constructor].
  - intros e w Hb. unfold settings_sidebar. rewrite Hb. split; reflexivity.
  - reflexivity.
Qed.

(** ** [validate_model_available] *)

(** C9.  For every probe and every model name the function returns a
    Boolean; it returns [True] exactly when the probe returns, and [False]
    whenever the probe raises, whatever the class of the exception. *)
Theorem validate_model_available_total
    (ollama_show : string -> result pyval) (model_name : string) :
  (validate_model_available ollama_show model_name = true \/
   validate_model_available ollama_show model_name = false) /\
  (validate_model_available ollama_show model_name = true
   <-> exists info, ollama_show model_name = Ok info) /\
  (forall ex, ollama_show model_name = Raise ex ->
              validate_model_available ollama_show model_name = false) /\
  (validate_model_available ollama_show model_name = false
   <-> exists ex, ollama_show model_name = Raise ex).
Proof.
  unfold validate_model_available.
  destruct (ollama_show model_name) as [info | ex].
  - split; [left; reflexivity |]. split; [| split].
    + split; [intros _; exists info; reflexivity | reflexivity].
    + intros ex H. discriminate H.
    + split; [discriminate | intros (ex & H); discriminate H].
  - split; [right; reflexivity |]. split; [| split].
    + split; [discriminate | intros (info & H); discriminate H].
    + reflexivity.
    + split; [intros _; exists ex; reflexivity | reflexivity].
Qed.

(** ** The transcript invariant *)

Lemma seeded_app (l l' : list message) : seeded l -> seeded (l ++ l').
Proof.
  intros (first & rest & -> & H). exists first, (rest ++ l')%list. split; [reflexivity | exact H].
Qed.

Create HintDb transcript.
#[local] Hint Resolve seeded_app : transcript.

Lemma seeded_initialize (ss : session_state) :
  session_seeded ss -> seeded (messages (initialize_session ss)).
Proof.
  intros H. unfold initialize_session; cbn.
  destruct (ss_messages ss) as [l |] eqn:E.
  - apply H. exact E.
  - exists initial_greeting, []. split; reflexivity.
Qed.

Lemma seeded_clear_history (w : world) : seeded (messages (clear_history w)).
Proof. exists reset_greeting, []. split; reflexivity. Qed.

Lemma seeded_settings_sidebar (e : env) (w : world) :
  seeded (messages w) -> seeded (messages (fst (settings_sidebar e w))).
Proof.
  intros H. unfold settings_sidebar.
  destruct (button e _); cbn [fst]; [apply seeded_clear_history | exact H].
Qed.

Lemma seeded_handle_query (e : env) (w : world) :
  seeded (messages w) -> seeded (messages (snd (handle_query e w))).
Proof.
  intros H.
  destruct (chat_input e prompt_label) as [prompt |] eqn:Hin.
  - destruct (truthy prompt) eqn:Ht.
    + rewrite (handle_query_run e prompt w Hin Ht).
      destruct (round_trip e w prompt) as [reply | ex]; cbn.
      * unfold tentative. auto with transcript.
      * destruct (is_Exception ex); cbn; [exact H |].
        unfold tentative. auto with transcript.
    + unfold handle_query. fold prompt_label. rewrite Hin, Ht. exact H.
  - unfold handle_query. fold prompt_label. rewrite Hin. exact H.
Qed.

Lemma main_keeps_seeded (e : env) (ss : session_state) :
  session_seeded ss -> session_seeded (left_state (main e ss)).
Proof.
  intros H. unfold main.
  destruct (availability (ollama_list e)) as [v | ex]; [| exact H].
  destruct v; try exact H.
  pose proof (seeded_settings_sidebar e _ (seeded_initialize ss H)) as Hs.
  destruct (settings_sidebar e (initialize_session ss)) as [w1 rerun].
  cbn [fst] in Hs. destruct rerun.
  - intros l Hl. cbn in Hl. injection Hl as <-. exact Hs.
  - pose proof (seeded_handle_query e (display_chat w1) Hs) as Hq.
    destruct (handle_query e (display_chat w1)) as [[u | ex] w2];
      intros l Hl; cbn in Hl; injection Hl as <-; exact Hq.
Qed.

Lemma reachable_seeded (ss : session_state) : reachable ss -> session_seeded ss.
Proof.
  induction 1 as [| e ss Hr IH].
  - intros l Hl. discriminate Hl.
  - apply main_keeps_seeded. exact IH.
Qed.

(** A run that gets the verdict [Ready] leaves a transcript behind. *)
Lemma main_ready_leaves_transcript (e : env) (ss : session_state) :
  availability (ollama_list e) = Verdict Ready ->
  exists l, ss_messages (left_state (main e ss)) = Some l.
Proof.
  intros H. unfold main. rewrite H.
  destruct (settings_sidebar e (initialize_session ss)) as [w1 [|]].
  - eexists. reflexivity.
  - destruct (handle_query e (display_chat w1)) as [[u | ex] w2]; eexists; reflexivity.
Qed.

(** C10.  [initialize_session] seeds the assistant greeting when the
    session has no transcript yet, and from then on the transcript is never
    empty and starts with an assistant message: [handle_query] keeps it so
    in every environment (a turn that succeeds appends two messages, a turn
    that fails appends one and removes it, no input changes nothing), the
    reset replaces it by a single assistant message, the sliders do not
    touch it; so every transcript found in a session state that runs of the
    script can reach is non-empty and starts with an assistant message. *)
Theorem transcript_starts_with_assistant :
  (forall ss, ss_messages ss = None ->
     messages (initialize_session ss) = [initial_greeting] /\
     seeded (messages (initialize_session ss))) /\
  (forall e w, seeded (messages w) -> seeded (messages (snd (handle_query e w)))) /\
  (forall w, seeded (messages (clear_history w))) /\
  (forall e w, seeded (messages w) -> seeded (messages (fst (settings_sidebar e w)))) /\
  (forall ss l, reachable ss -> ss_messages ss = Some l ->
     l <> [] /\ exists first rest, l = first :: rest /\ msg_role first = assistant) /\
  (forall e ss, reachable ss -> availability (ollama_list e) = Verdict Ready ->
     exists l, ss_messages (left_state (main e ss)) = Some l /\ seeded l).
Proof.
  repeat apply conj.
  - intros ss H. split.
    + unfold initialize_session. rewrite H. reflexivity.
    + apply seeded_initialize. intros l Hl. congruence.
  - exact seeded_handle_query.
  - exact seeded_clear_history.
  - exact seeded_settings_sidebar.
  - intros ss l Hr Hl. split.
    + destruct (reachable_seeded ss Hr l Hl) as (first & rest & -> & H). discriminate.
    + exact (reachable_seeded ss Hr l Hl).
  - intros e ss Hr Hv.
    destruct (main_ready_leaves_transcript e ss Hv) as (l & Hl).
    exists l. split; [exact Hl |].
    exact (reachable_seeded _ (reach_run e ss Hr) l Hl).
Qed.

Lemma transcript_starts_with_assistant_witness :
  seeded (messages (snd (handle_query (idle_env (Raise connection_refused) (Some "hello"))
                                      seeded_world))).
Proof.
  apply (proj1 (proj2 transcript_starts_with_assistant)).
  exists initial_greeting, []. split; reflexivity.
Defined.

(** * More of the script: vocabulary *)

(** The number of calls to the chat client in a trace. *)
Fixpoint chat_calls (t : list event) : nat :=
  match t with
  | [] => 0
  | CallChat _ _ _ :: t' => S (chat_calls t')
  | _ :: t' => chat_calls t'
  end.

(** The number of error boxes in a trace. *)
Fixpoint error_boxes (t : list event) : nat :=
  match t with
  | [] => 0
  | UiErrorBox _ :: t' => S (error_boxes t')
  | _ :: t' => error_boxes t'
  end.

(** The chat bubbles of a page, in the order they were drawn. *)
Fixpoint shown (t : list event) : list (role * pyval) :=
  match t with
  | [] => []
  | UiChatMessage r body :: t' => (r, body) :: shown t'
  | _ :: t' => shown t'
  end.

(** The bubble [display_chat] draws for a message. *)
Definition bubble (m : message) : role * pyval := (msg_role m, msg_content m).

(** A user message followed by an assistant message, any number of
    times. *)
Fixpoint exchanges (l : list message) : bool :=
  match l with
  | [] => true
  | u :: rest =>
      match msg_role u, rest with
      | user, a :: rest' =>
          match msg_role a with
          | assistant => exchanges rest'
          | user => false
          end
      | _, _ => false
      end
  end.

(** A greeting of the assistant followed by complete exchanges. *)
Definition settled (l : list message) : bool :=
  match l with
  | [] => false
  | g :: rest =>
      match msg_role g with
      | assistant => exchanges rest
      | user => false
      end
  end.


(** The session states reached from the empty one by runs of [main] in
    environments that satisfy [P]. *)
Inductive reachable_in (P : env -> Prop) : session_state -> Prop :=
| reach_in_fresh : reachable_in P fresh_session
| reach_in_run (e : env) (ss : session_state) :
    P e -> reachable_in P ss -> reachable_in P (left_state (main e ss)).

Definition clear_label : string := "🧹 Clear Chat History".

(** The chat client is interrupted during the call. *)
Definition interrupted_env (input : option string) : env :=
  idle_env (Raise (Exn NonException "KeyboardInterrupt")) input.

(** * More of the script: properties *)

(** ** [handle_query] in any environment *)

(** The four ways [handle_query] ends. *)
Lemma handle_query_outcomes (e : env) (w : world) :
  ((chat_input e prompt_label = None \/ chat_input e prompt_label = Some "") /\
   handle_query e w = (Ok tt, w)) \/
  exists prompt,
    chat_input e prompt_label = Some prompt /\ truthy prompt = true /\
    ((exists reply,
        round_trip e w prompt = Ok reply /\
        handle_query e w
        = (Ok tt,
           World (tentative w prompt ++ [Message assistant reply]) (params w)
                 (called w prompt ++ [UiChatMessage assistant reply]))) \/
     (exists ex,
        round_trip e w prompt = Raise ex /\ is_Exception ex = true /\
        handle_query e w
        = (Ok tt,
           World (messages w) (params w) (called w prompt ++ [UiErrorBox (str ex)]))) \/
     (exists ex,
        round_trip e w prompt = Raise ex /\ is_Exception ex = false /\
        handle_query e w
        = (Raise ex, World (tentative w prompt) (params w) (called w prompt)))).
Proof.
  destruct (chat_input e prompt_label) as [prompt |] eqn:Hin.
  - destruct (truthy prompt) eqn:Ht.
    + right. exists prompt. split; [reflexivity |]. split; [exact Ht |].
      rewrite (handle_query_run e prompt w Hin Ht).
      destruct (round_trip e w prompt) as [reply | ex].
      * left. exists reply. split; reflexivity.
      * destruct (is_Exception ex) eqn:Hex.
        -- right; left. exists ex. split; [reflexivity |]. split; [exact Hex | reflexivity].
        -- right; right. exists ex. split; [reflexivity |]. split; [exact Hex | reflexivity].
    + left. destruct prompt; [| discriminate]. split; [right; reflexivity |].
      unfold handle_query. fold prompt_label. rewrite Hin. reflexivity.
  - left. split; [left; reflexivity |].
    unfold handle_query. fold prompt_label. rewrite Hin. reflexivity.
Qed.

Lemma chat_calls_app (t1 t2 : list event) :
  chat_calls (t1 ++ t2) = chat_calls t1 + chat_calls t2.
Proof.
  induction t1 as [| ev t1 IH]; cbn; [reflexivity |].
  destruct ev; cbn; rewrite IH; reflexivity.
Qed.

Lemma error_boxes_app (t1 t2 : list event) :
  error_boxes (t1 ++ t2) = error_boxes t1 + error_boxes t2.
Proof.
  induction t1 as [| ev t1 IH]; cbn; [reflexivity |].
  destruct ev; cbn; rewrite IH; reflexivity.
Qed.

Lemma shown_app (t1 t2 : list event) :
  shown (t1 ++ t2) = (shown t1 ++ shown t2)%list.
Proof.
  induction t1 as [| ev t1 IH]; cbn; [reflexivity |].
  destruct ev; cbn; rewrite IH; reflexivity.
Qed.


(** X1.  Whatever the environment answers, [handle_query] leaves the
    parameters alone and never alters or removes a message that was in the
    transcript: the new transcript is the old one followed by at most two
    messages, and the trace only grows. *)
Theorem handle_query_is_append_only (e : env) (w : world) :
  params (snd (handle_query e w)) = params w /\
  (exists suffix,
     messages (snd (handle_query e w)) = (messages w ++ suffix)%list /\
     length suffix <= 2) /\
  (exists t, trace (snd (handle_query e w)) = (trace w ++ t)%list).
Proof.
  destruct (handle_query_outcomes e w)
    as [(_ & H) | (prompt & _ & _ & [(reply & _ & H) | [(ex & _ & _ & H) | (ex & _ & _ & H)]])];
    rewrite H; cbn; (split; [reflexivity |]); split.
  - exists []. rewrite app_nil_r. split; [reflexivity | cbn; lia].
  - exists []. rewrite app_nil_r. reflexivity.
  - exists [Message user (PyStr prompt); Message assistant reply].
    unfold tentative. rewrite <- app_assoc. split; [reflexivity | cbn; lia].
  - unfold called. rewrite <- !app_assoc. eexists. reflexivity.
  - exists []. rewrite app_nil_r. split; [reflexivity | cbn; lia].
  - unfold called. rewrite <- !app_assoc. eexists. reflexivity.
  - exists [Message user (PyStr prompt)]. split; [reflexivity | cbn; lia].
  - unfold called. rewrite <- !app_assoc. eexists. reflexivity.
Qed.

(** X2.  [handle_query] calls the chat client at most once, and not at all
    without a non-empty prompt; the one call names the model
    deepseek-r1:1.5b, carries the parameters of the session and the
    transcript extended by the prompt. *)
Theorem handle_query_calls_chat_once (e : env) (w : world) :
  exists t,
    trace (snd (handle_query e w)) = (trace w ++ t)%list /\
    chat_calls t <= 1 /\
    (chat_calls t = 1 <->
     exists prompt, chat_input e prompt_label = Some prompt /\ prompt <> "") /\
    (forall model msgs options,
       In (CallChat model msgs options) t ->
       model = "deepseek-r1:1.5b" /\ options = params w /\
       exists prompt,
         chat_input e prompt_label = Some prompt /\
         msgs = (messages w ++ [Message user (PyStr prompt)])%list).
Proof.
  assert (Hcall : forall prompt tail,
            chat_calls tail = 0 ->
            (forall model msgs options, ~ In (CallChat model msgs options) tail) ->
            chat_input e prompt_label = Some prompt -> truthy prompt = true ->
            let t := ([UiChatMessage user (PyStr prompt);
                       CallChat required_model (tentative w prompt) (params w)]
                        ++ tail)%list in
            (called w prompt ++ tail = trace w ++ t)%list /\
            chat_calls t <= 1 /\
            (chat_calls t = 1 <->
             exists p, chat_input e prompt_label = Some p /\ p <> "") /\
            (forall model msgs options,
               In (CallChat model msgs options) t ->
               model = "deepseek-r1:1.5b" /\ options = params w /\
               exists p, chat_input e prompt_label = Some p /\
                         msgs = (messages w ++ [Message user (PyStr p)])%list)).
  { intros prompt tail Hz Hno Hin Ht t. subst t. repeat apply conj.
    - unfold called. rewrite <- !app_assoc. reflexivity.
    - cbn. rewrite Hz. lia.
    - intros _. exists prompt. split; [exact Hin |].
      destruct prompt; [discriminate Ht | discriminate].
    - intros _. cbn. rewrite Hz. reflexivity.
    - intros model msgs options [H | [H | H]].
      + discriminate.
      + injection H as <- <- <-. repeat split. exists prompt. split; [exact Hin | reflexivity].
      + exfalso. exact (Hno _ _ _ H). }
  destruct (handle_query_outcomes e w)
    as [(Hno & H) | (prompt & Hin & Ht & [(reply & _ & H) | [(ex & _ & _ & H) | (ex & _ & _ & H)]])];
    rewrite H; cbn [snd trace].
  - exists []. rewrite app_nil_r. split; [reflexivity |]. split; [cbn; lia |]. split.
    + split; [discriminate |].
      intros (p & Hp & Hne). destruct Hno as [Hn | Hn]; congruence.
    + intros model msgs options [].
  - eexists. apply (Hcall prompt [UiChatMessage assistant reply]); auto.
    intros model msgs options [C | []]. discriminate.
  - eexists. apply (Hcall prompt [UiErrorBox (str ex)]); auto.
    intros model msgs options [C | []]. discriminate.
  - eexists. replace (called w prompt) with (called w prompt ++ [])%list by apply app_nil_r.
    apply (Hcall prompt []); auto.
Qed.



(** ** Turns one after the other *)

Lemma round_trip_ext (e : env) (w1 w2 : world) (prompt : string) :
  messages w1 = messages w2 -> params w1 = params w2 ->
  round_trip e w1 prompt = round_trip e w2 prompt.
Proof.
  intros Hm Hp. unfold round_trip, tentative. rewrite Hm, Hp. reflexivity.
Qed.

(** What [handle_query] returns and what it leaves in the session depend on
    the transcript and the parameters only, not on what is on the page. *)
Lemma handle_query_ext (e : env) (w1 w2 : world) :
  messages w1 = messages w2 -> params w1 = params w2 ->
  fst (handle_query e w1) = fst (handle_query e w2) /\
  messages (snd (handle_query e w1)) = messages (snd (handle_query e w2)) /\
  params (snd (handle_query e w1)) = params (snd (handle_query e w2)).
Proof.
  intros Hm Hp.
  destruct (chat_input e prompt_label) as [prompt |] eqn:Hin.
  - destruct (truthy prompt) eqn:Ht.
    + rewrite (handle_query_run e prompt w1 Hin Ht), (handle_query_run e prompt w2 Hin Ht).
      rewrite (round_trip_ext e w1 w2 prompt Hm Hp).
      destruct (round_trip e w2 prompt) as [reply | ex]; cbn.
      * unfold tentative. rewrite Hm, Hp. auto.
      * destruct (is_Exception ex); cbn; unfold tentative; rewrite Hm, Hp; auto.
    + unfold handle_query. fold prompt_label. rewrite Hin, Ht. cbn. auto.
  - unfold handle_query. fold prompt_label. rewrite Hin. cbn. auto.
Qed.

(** X4.  A turn that failed leaves nothing behind for the next one: after a
    failed turn, [handle_query] returns the same result and leaves the same
    transcript and parameters as if the failed turn had never been
    submitted. *)
Theorem retry_after_failure_starts_clean
    (e1 e2 : env) (w : world) (prompt : string) (ex : exn) :
  chat_input e1 prompt_label = Some prompt ->
  truthy prompt = true ->
  round_trip e1 w prompt = Raise ex ->
  is_Exception ex = true ->
  fst (handle_query e2 (snd (handle_query e1 w))) = fst (handle_query e2 w) /\
  messages (snd (handle_query e2 (snd (handle_query e1 w))))
    = messages (snd (handle_query e2 w)) /\
  params (snd (handle_query e2 (snd (handle_query e1 w))))
    = params (snd (handle_query e2 w)).
Proof.
  intros Hin Ht Hr Hex.
  apply handle_query_ext;
    rewrite (handle_query_run e1 prompt w Hin Ht), Hr, Hex; reflexivity.
Qed.

Lemma retry_after_failure_starts_clean_witness :
  messages (snd (handle_query (idle_env (Ok reply_hi) (Some "again"))
                   (snd (handle_query (idle_env (Raise connection_refused) (Some "hello"))
                                      seeded_world))))
  = messages (snd (handle_query (idle_env (Ok reply_hi) (Some "again")) seeded_world)).
Proof.
  apply (retry_after_failure_starts_clean
           (idle_env (Raise connection_refused) (Some "hello"))
           (idle_env (Ok reply_hi) (Some "again"))
           seeded_world "hello" connection_refused); reflexivity.
Defined.

(** X5.  The history accumulates: of two turns that succeed one after the
    other, the second sends the chat client the transcript with the first
    exchange in it, and the transcript ends with the two exchanges in
    order. *)
Theorem second_turn_sends_first_exchange
    (e1 e2 : env) (w : world) (p1 p2 : string) (resp1 r1 resp2 r2 : pyval) :
  chat_input e1 prompt_label = Some p1 -> truthy p1 = true ->
  ollama_chat e1 required_model (messages w ++ [Message user (PyStr p1)]) (params w)
    = Ok resp1 ->
  extract_reply resp1 = Ok r1 ->
  chat_input e2 prompt_label = Some p2 -> truthy p2 = true ->
  ollama_chat e2 required_model
    (messages w ++ [Message user (PyStr p1); Message assistant r1;
                    Message user (PyStr p2)])
    (params w) = Ok resp2 ->
  extract_reply resp2 = Ok r2 ->
  messages (snd (handle_query e2 (snd (handle_query e1 w))))
    = (messages w ++ [Message user (PyStr p1); Message assistant r1;
                      Message user (PyStr p2); Message assistant r2])%list /\
  In (CallChat required_model
        (messages w ++ [Message user (PyStr p1); Message assistant r1;
                        Message user (PyStr p2)])
        (params w))
     (trace (snd (handle_query e2 (snd (handle_query e1 w))))).
Proof.
  intros Hin1 Ht1 Hc1 Hx1 Hin2 Ht2 Hc2 Hx2.
  assert (H1 : handle_query e1 w
               = (Ok tt,
                  World (messages w ++ [Message user (PyStr p1); Message assistant r1])
                        (params w)
                        (called w p1 ++ [UiChatMessage assistant r1]))).
  { rewrite (handle_query_run e1 p1 w Hin1 Ht1).
    unfold round_trip, tentative. rewrite Hc1. cbn [rbind]. rewrite Hx1.
    rewrite <- app_assoc. reflexivity. }
  rewrite H1. cbn [snd].
  set (w1 := World _ (params w) _).
  assert (Ht : tentative w1 p2
               = (messages w ++ [Message user (PyStr p1); Message assistant r1;
                                 Message user (PyStr p2)])%list).
  { unfold tentative, w1. cbn [messages]. rewrite <- app_assoc. reflexivity. }
  assert (Hrt : round_trip e2 w1 p2 = Ok r2).
  { unfold round_trip. rewrite Ht. change (params w1) with (params w).
    rewrite Hc2. exact Hx2. }
  rewrite (handle_query_run e2 p2 w1 Hin2 Ht2), Hrt. cbn [snd messages trace].
  split.
  - rewrite Ht, <- app_assoc. reflexivity.
  - apply in_or_app. left. unfold called. apply in_or_app. right. left.
    rewrite Ht. reflexivity.
Qed.

Lemma second_turn_sends_first_exchange_witness :
  messages (snd (handle_query (idle_env (Ok reply_hi) (Some "more"))
                   (snd (handle_query (idle_env (Ok reply_hi) (Some "hello"))
                                      seeded_world))))
  = [initial_greeting;
     Message user (PyStr "hello"); Message assistant (PyStr "hi");
     Message user (PyStr "more"); Message assistant (PyStr "hi")].
Proof.
  apply (second_turn_sends_first_exchange
           (idle_env (Ok reply_hi) (Some "hello")) (idle_env (Ok reply_hi) (Some "more"))
           seeded_world "hello" "more" reply_hi (PyStr "hi") reply_hi (PyStr "hi"));
    reflexivity.
Defined.

(** ** The check of the response *)

Lemma extract_reply_error_class (response : pyval) (ex : exn) :
  extract_reply response = Raise ex -> cls ex = ValueError \/ cls ex = TypeError.
Proof.
  unfold extract_reply, response_malformed.
  destruct response as [| b | n | q | s | l | d]; cbn;
    try (intros H; injection H as <-; right; reflexivity).
  - destruct (substring_of "message" s); cbn; intros H; injection H as <-;
      [right | left]; reflexivity.
  - destruct (existsb _ l); cbn; intros H; injection H as <-; [right | left]; reflexivity.
  - destruct (dict_get d "message") as [inner |]; cbn;
      [| intros H; injection H as <-; left; reflexivity].
    destruct inner as [| b | n | q | s | l | m]; cbn;
      try (intros H; injection H as <-; right; reflexivity).
    + destruct (substring_of "content" s); cbn; intros H; injection H as <-;
        [right | left]; reflexivity.
    + destruct (existsb _ l); cbn; intros H; injection H as <-; [right | left]; reflexivity.
    + destruct (dict_get m "content"); cbn; [discriminate |].
      intros H; injection H as <-; left; reflexivity.
Qed.

(** X6.  The check of lines 166-169 accepts exactly the responses that are
    a mapping whose [message] is a mapping with a [content] entry, and the
    reply is that entry whatever its type ([None] too).  Every other
    response is refused with a [ValueError] (an entry is missing) or a
    [TypeError] (the response or its [message] is not a mapping); the
    subscripts never raise a [KeyError]. *)
Theorem response_check_accepts_exactly (response : pyval) :
  (forall reply,
     extract_reply response = Ok reply <->
     exists d m, response = PyDict d /\ dict_get d "message" = Some (PyDict m)
                 /\ dict_get m "content" = Some reply) /\
  (forall ex,
     extract_reply response = Raise ex ->
     (cls ex = ValueError \/ cls ex = TypeError) /\ is_Exception ex = true) /\
  extract_reply (PyDict [("message", PyDict [("content", PyNone)])]) = Ok PyNone /\
  extract_reply (PyDict [("message", PyStr "no content here")])
    = Raise (Exn TypeError "string indices must be integers") /\
  extract_reply (PyDict [("message", PyNone)])
    = Raise (Exn TypeError "argument is not iterable").
Proof.
  split; [| split; [| repeat split]].
  - intros reply. apply extract_reply_ok.
  - intros ex H. split.
    + exact (extract_reply_error_class response ex H).
    + exact (extract_reply_raises response ex H).
Qed.

(** ** Whole runs of [main] *)

(** The state after the four slider statements. *)
Definition after_sliders (e : env) (w : world) : world :=
  repeat_penalty_control e (num_predict_control e (top_p_control e (temperature_control e w))).

Lemma settings_sidebar_unfold (e : env) (w : world) :
  settings_sidebar e w
  = if button e clear_label then (clear_history (after_sliders e w), true)
    else (after_sliders e w, false).
Proof. reflexivity. Qed.

Lemma after_sliders_keeps (e : env) (w : world) :
  messages (after_sliders e w) = messages w /\ trace (after_sliders e w) = trace w.
Proof. split; reflexivity. Qed.

(** A run that gets [Ready] and in which the clear button is not pressed:
    the sliders, the display of the transcript, then [handle_query]. *)
Lemma main_ready_run (e : env) (ss : session_state) :
  availability (ollama_list e) = Verdict Ready ->
  button e clear_label = false ->
  let w1 := display_chat (after_sliders e (initialize_session ss)) in
  left_state (main e ss) = save (snd (handle_query e w1)) /\
  page (main e ss) = trace (snd (handle_query e w1)) /\
  ending (main e ss)
  = match fst (handle_query e w1) with
    | Ok _ => Finished
    | Raise ex => Crashed ex
    end.
Proof.
  intros Hv Hb w1. unfold main. rewrite Hv, settings_sidebar_unfold, Hb.
  fold w1. destruct (handle_query e w1) as [[u | ex] w2]; cbn; auto.
Qed.

Lemma shown_display_chat (w : world) :
  trace w = [] ->
  shown (trace (display_chat w)) = map bubble (messages w) /\
  chat_calls (trace (display_chat w)) = 0 /\
  error_boxes (trace (display_chat w)) = 0.
Proof.
  intros Ht. unfold display_chat; cbn. rewrite Ht; cbn.
  induction (messages w) as [| m l IH]; cbn; [auto |].
  destruct IH as (IH1 & IH2 & IH3). rewrite IH1. auto.
Qed.

(** X7.  When the clear button is pressed in a run that passed the startup
    checks, the run ends by restarting the script right after the reset:
    the transcript left is the single reset greeting, the slider values of
    this run are kept, and a prompt submitted in the same run is dropped --
    nothing is drawn for it and the chat client is not called. *)
Theorem clear_button_drops_the_prompt (e : env) (ss : session_state) :
  availability (ollama_list e) = Verdict Ready ->
  button e clear_label = true ->
  ending (main e ss) = Rerun /\
  ss_messages (left_state (main e ss)) = Some [reset_greeting] /\
  ss_params (left_state (main e ss))
    = Some (params (after_sliders e (initialize_session ss))) /\
  page (main e ss) = [].
Proof.
  intros Hv Hb. unfold main. rewrite Hv, settings_sidebar_unfold, Hb. cbn.
  repeat split.
Qed.

Lemma clear_button_drops_the_prompt_witness :
  ss_messages
    (left_state
       (main (Env (Ok listing_with_model) (fun _ _ _ => Ok reply_hi)
                  (fun _ _ _ v => v) (fun _ _ _ v _ => v)
                  (fun _ => true) (fun _ => Some "hello"))
             (save (World [initial_greeting; Message user (PyStr "a");
                           Message assistant (PyStr "b")]
                          default_params []))))
  = Some [reset_greeting].
Proof.
  apply (clear_button_drops_the_prompt
           (Env (Ok listing_with_model) (fun _ _ _ => Ok reply_hi)
                (fun _ _ _ v => v) (fun _ _ _ v _ => v)
                (fun _ => true) (fun _ => Some "hello"))); reflexivity.
Defined.

(** X8.  In a run that passed the startup checks without the clear button,
    the chat bubbles on the page are the transcript the run leaves behind,
    message for message -- except after a failed turn: then the page shows
    one error box and, as its last bubble, the prompt that was removed from
    the transcript. *)
Theorem page_shows_the_transcript (e : env) (ss : session_state) (l : list message) :
  availability (ollama_list e) = Verdict Ready ->
  button e clear_label = false ->
  ss_messages (left_state (main e ss)) = Some l ->
  (error_boxes (page (main e ss)) = 0 /\
   shown (page (main e ss)) = map bubble l) \/
  (error_boxes (page (main e ss)) = 1 /\
   exists prompt,
     chat_input e prompt_label = Some prompt /\
     shown (page (main e ss)) = (map bubble l ++ [(user, PyStr prompt)])%list).
Proof.
  intros Hv Hb Hl.
  destruct (main_ready_run e ss Hv Hb) as (Hs & Hp & _).
  rewrite Hp. rewrite Hs in Hl. clear Hs Hp.
  set (w1 := display_chat (after_sliders e (initialize_session ss))) in *.
  destruct (shown_display_chat (after_sliders e (initialize_session ss)) eq_refl)
    as (Hsh & _ & Heb).
  fold w1 in Hsh, Heb.
  change (messages (after_sliders e (initialize_session ss))) with (messages w1) in Hsh.
  destruct (handle_query_outcomes e w1)
    as [(_ & H) | (prompt & Hin & _ & [(reply & _ & H) | [(ex & _ & _ & H) | (ex & _ & _ & H)]])];
    rewrite H in Hl |- *; cbn [snd trace messages save ss_messages] in Hl |- *;
    injection Hl as <-; unfold called, tentative.
  - left. split; assumption.
  - left. rewrite !error_boxes_app, !shown_app, Heb, Hsh, !map_app.
    cbn [shown error_boxes app map bubble msg_role msg_content Nat.add].
    rewrite ?app_nil_r, <- ?app_assoc. split; reflexivity.
  - right. rewrite !error_boxes_app, !shown_app, Heb, Hsh.
    cbn [shown error_boxes app map bubble msg_role msg_content Nat.add].
    rewrite ?app_nil_r, <- ?app_assoc. split; [reflexivity |].
    exists prompt. split; [exact Hin | reflexivity].
  - left. rewrite !error_boxes_app, !shown_app, Heb, Hsh, !map_app.
    cbn [shown error_boxes app map bubble msg_role msg_content Nat.add].
    rewrite ?app_nil_r, <- ?app_assoc. split; reflexivity.
Qed.

Lemma page_shows_the_transcript_witness :
  (error_boxes (page (main (idle_env (Raise connection_refused) (Some "hello"))
                           fresh_session)) = 0 /\
   shown (page (main (idle_env (Raise connection_refused) (Some "hello")) fresh_session))
     = map bubble [initial_greeting]) \/
  (error_boxes (page (main (idle_env (Raise connection_refused) (Some "hello"))
                           fresh_session)) = 1 /\
   exists prompt,
     chat_input (idle_env (Raise connection_refused) (Some "hello")) prompt_label
       = Some prompt /\
     shown (page (main (idle_env (Raise connection_refused) (Some "hello")) fresh_session))
       = (map bubble [initial_greeting] ++ [(user, PyStr prompt)])%list).
Proof.
  apply (page_shows_the_transcript
           (idle_env (Raise connection_refused) (Some "hello")) fresh_session
           [initial_greeting]); reflexivity.
Defined.

(** ** Invariants of the session over runs *)

Lemma handle_query_params (e : env) (w : world) :
  params (snd (handle_query e w)) = params w.
Proof.
  destruct (handle_query_outcomes e w)
    as [(_ & H) | (prompt & _ & _ & [(reply & _ & H) | [(ex & _ & _ & H) | (ex & _ & _ & H)]])];
    rewrite H; reflexivity.
Qed.

Lemma handle_query_suffix (e : env) (w : world) :
  exists suffix,
    messages (snd (handle_query e w)) = (messages w ++ suffix)%list /\ length suffix <= 2.
Proof.
  destruct (handle_query_outcomes e w)
    as [(_ & H) | (prompt & _ & _ & [(reply & _ & H) | [(ex & _ & _ & H) | (ex & _ & _ & H)]])];
    rewrite H; cbn [snd messages].
  - exists []. rewrite app_nil_r. split; [reflexivity | cbn; lia].
  - exists [Message user (PyStr prompt); Message assistant reply].
    unfold tentative. rewrite <- app_assoc. split; [reflexivity | cbn; lia].
  - exists []. rewrite app_nil_r. split; [reflexivity | cbn; lia].
  - exists [Message user (PyStr prompt)]. split; [reflexivity | cbn; lia].
Qed.

(** The three ways a run goes: it stops at the startup checks, it is
    restarted by the clear button, or it reaches [handle_query]. *)
Lemma main_cases (e : env) (ss : session_state) :
  (availability (ollama_list e) <> Verdict Ready /\
   left_state (main e ss) = ss /\ page (main e ss) = []) \/
  (availability (ollama_list e) = Verdict Ready /\ button e clear_label = true /\
   left_state (main e ss) = save (clear_history (after_sliders e (initialize_session ss))) /\
   page (main e ss) = []) \/
  (availability (ollama_list e) = Verdict Ready /\ button e clear_label = false /\
   left_state (main e ss)
     = save (snd (handle_query e (display_chat (after_sliders e (initialize_session ss))))) /\
   page (main e ss)
     = trace (snd (handle_query e (display_chat (after_sliders e (initialize_session ss)))))).
Proof.
  destruct (availability (ollama_list e)) as [v | ex] eqn:Hv.
  - destruct v;
      try (left; destruct (main_halts e ss) as (H1 & H2 & _);
           [rewrite Hv; discriminate | split; [discriminate | split; assumption]]).
    destruct (button e clear_label) eqn:Hb.
    + right; left. unfold main. rewrite Hv, settings_sidebar_unfold, Hb. cbn. auto.
    + right; right. destruct (main_ready_run e ss Hv Hb) as (H1 & H2 & _). auto.
  - left. destruct (main_halts e ss) as (H1 & H2 & _);
      [rewrite Hv; discriminate | split; [discriminate | split; assumption]].
Qed.

Lemma after_sliders_in_ranges (e : env) (w : world) :
  slider_contract e -> in_documented_ranges (params (after_sliders e w)).
Proof.
  intros [HQ HZ].
  assert (H01 : (0 <= 1)%Q) by (unfold Qle; cbn; lia).
  assert (Ht1 : (1 # 10 <= 1)%Q) by (unfold Qle; cbn; lia).
  assert (H12 : (1 <= 2)%Q) by (unfold Qle; cbn; lia).
  assert (HZr : (128 <= 2048)%Z) by lia.
  split; [exact (HQ _ 0%Q 1%Q _ H01) |
  split; [exact (HQ _ (1 # 10)%Q 1%Q _ Ht1) |
  split; [exact (HZ _ 128%Z 2048%Z _ _ HZr) | exact (HQ _ 1%Q 2%Q _ H12)]]].
Qed.

Lemma in_call_chat_calls (t : list event) model msgs options :
  In (CallChat model msgs options) t -> 1 <= chat_calls t.
Proof.
  induction t as [| ev t IH]; cbn; [intros [] |].
  intros [-> | H]; [lia |]. specialize (IH H). destruct ev; lia.
Qed.

(** X9.  With sliders that keep to their bounds, the parameters kept in the
    session are within the documented ranges in every state the script can
    reach, and so are the options of every call made to the chat client:
    the defaults are only ever replaced by slider values. *)
Theorem params_stay_in_range :
  (forall ss p,
     reachable_in slider_contract ss -> ss_params ss = Some p ->
     in_documented_ranges p) /\
  (forall e ss model msgs options,
     slider_contract e ->
     In (CallChat model msgs options) (page (main e ss)) ->
     in_documented_ranges options).
Proof.
  split.
  - intros ss p Hr. revert p. induction Hr as [| e ss He Hr IH]; [discriminate |].
    intros p Hp.
    destruct (main_cases e ss) as [(_ & Hs & _) | [(_ & _ & Hs & _) | (_ & _ & Hs & _)]];
      rewrite Hs in Hp.
    + exact (IH p Hp).
    + cbn [save ss_params clear_history params] in Hp. injection Hp as <-.
      exact (after_sliders_in_ranges e (initialize_session ss) He).
    + cbn [save ss_params] in Hp. injection Hp as <-.
      rewrite handle_query_params.
      exact (after_sliders_in_ranges e (initialize_session ss) He).
  - intros e ss model msgs options He Hin.
    destruct (main_cases e ss) as [(_ & _ & Hp) | [(_ & _ & _ & Hp) | (_ & _ & _ & Hp)]];
      rewrite Hp in Hin; try (destruct Hin).
    set (w1 := display_chat (after_sliders e (initialize_session ss))) in *.
    assert (Hw : in_documented_ranges (params w1))
      by exact (after_sliders_in_ranges e (initialize_session ss) He).
    destruct (shown_display_chat (after_sliders e (initialize_session ss)) eq_refl)
      as (_ & Hc & _). fold w1 in Hc.
    assert (Hno : ~ In (CallChat model msgs options) (trace w1)).
    { intros C. apply in_call_chat_calls in C. lia. }
    destruct (handle_query_outcomes e w1)
      as [(_ & H) | (prompt & _ & _ & [(reply & _ & H) | [(ex & _ & _ & H) | (ex & _ & _ & H)]])];
      rewrite H in Hin; cbn [snd trace] in Hin; unfold called in Hin;
      repeat (apply in_app_or in Hin; destruct Hin as [Hin | Hin]);
      try contradiction;
      repeat (destruct Hin as [Hin | Hin]; try discriminate; try contradiction);
      injection Hin as _ _ <-; exact Hw.
Qed.

Lemma params_stay_in_range_witness :
  in_documented_ranges
    (params (after_sliders (clamping_env 5 4096) (initialize_session fresh_session))).
Proof.
  apply (proj1 params_stay_in_range
           (left_state (main (clamping_env 5 4096) fresh_session))).
  - apply reach_in_run; [apply clamping_env_contract | apply reach_in_fresh].
  - reflexivity.
Defined.

(** X11.  A run never alters or removes a message of the transcript unless
    the clear button is pressed in it: the transcript it leaves is the one it
    found followed by at most two messages.  The two session entries, once
    there, are there after every run. *)
Theorem history_is_lost_only_by_clearing (e : env) (ss : session_state) :
  (forall l,
     ss_messages ss = Some l ->
     availability (ollama_list e) <> Verdict Ready \/ button e clear_label = false ->
     exists suffix,
       ss_messages (left_state (main e ss)) = Some (l ++ suffix)%list /\
       length suffix <= 2) /\
  (ss_messages ss <> None -> ss_messages (left_state (main e ss)) <> None) /\
  (ss_params ss <> None -> ss_params (left_state (main e ss)) <> None) /\
  (availability (ollama_list e) = Verdict Ready ->
   ss_messages (left_state (main e ss)) <> None /\
   ss_params (left_state (main e ss)) <> None).
Proof.
  repeat apply conj.
  - intros l Hl Hkeep.
    destruct (main_cases e ss) as [(_ & Hs & _) | [(Hv & Hb & _) | (_ & _ & Hs & _)]].
    + rewrite Hs. exists []. rewrite app_nil_r. split; [exact Hl | cbn; lia].
    + destruct Hkeep; congruence.
    + rewrite Hs. cbn [save ss_messages].
      destruct (handle_query_suffix e (display_chat (after_sliders e (initialize_session ss))))
        as (suffix & Hm & Hlen).
      exists suffix. split; [| exact Hlen]. rewrite Hm. cbn. rewrite Hl. reflexivity.
  - intros H.
    destruct (main_cases e ss) as [(_ & Hs & _) | [(_ & _ & Hs & _) | (_ & _ & Hs & _)]];
      rewrite Hs; [exact H | discriminate | discriminate].
  - intros H.
    destruct (main_cases e ss) as [(_ & Hs & _) | [(_ & _ & Hs & _) | (_ & _ & Hs & _)]];
      rewrite Hs; [exact H | discriminate | discriminate].
  - intros Hv.
    destruct (main_cases e ss) as [(Hn & _) | [(_ & _ & Hs & _) | (_ & _ & Hs & _)]];
      [congruence | rewrite Hs; split; discriminate | rewrite Hs; split; discriminate].
Qed.

Lemma history_is_lost_only_by_clearing_witness :
  exists suffix,
    ss_messages (left_state (main (idle_env (Ok reply_hi) (Some "hello"))
                                  (save seeded_world)))
      = Some ([initial_greeting] ++ suffix)%list /\
    length suffix <= 2.
Proof.
  apply (proj1 (history_is_lost_only_by_clearing
                  (idle_env (Ok reply_hi) (Some "hello")) (save seeded_world))).
  - reflexivity.
  - right. reflexivity.
Defined.

(** ** The shape of the transcript *)






(** An interrupted call leaves a prompt without an answer in the
    transcript. *)
Lemma interrupt_leaves_unanswered_prompt :
  settled (messages (snd (handle_query (interrupted_env (Some "hello")) seeded_world)))
  = false.
Proof. reflexivity. Qed.




(** ** More on the startup checks *)

Lemma any_app (p : pyval -> result bool) (l1 l2 : list pyval) :
  (any p l1 = Ok true -> any p (l1 ++ l2) = Ok true) /\
  (any p l1 = Ok false -> any p (l1 ++ l2) = any p l2).
Proof.
  induction l1 as [| m l1 [IH1 IH2]]; cbn.
  - split; [discriminate | reflexivity].
  - destruct (p m) as [[|] | ex]; split; auto; discriminate.
Qed.

Lemma entry_matches_not_a_dict (x : pyval) :
  (forall m, x <> PyDict m) ->
  entry_matches x = Raise (Exn AttributeError "object has no attribute 'get'").
Proof.
  intros H. destruct x; try reflexivity. exfalso. exact (H d eq_refl).
Qed.

(** X12.  The search for the model stops at the first item that names it:
    what follows that item in the list is not looked at, so anything after
    it, well-formed or not, leaves the verdict [Ready].  An item that is not
    a mapping before any match is not handled: the run ends with an
    uncaught [AttributeError]. *)
Theorem model_search_stops_at_first_match
    (d : pydict) (entries : list pydict) (rest : list pyval) :
  dict_get d "models" = Some (PyList (map PyDict entries ++ rest)) ->
  (Exists names_required entries -> availability (Ok (PyDict d)) = Verdict Ready) /\
  (~ Exists names_required entries ->
   forall x rest', rest = x :: rest' -> (forall m, x <> PyDict m) ->
   availability (Ok (PyDict d))
   = Uncaught (Exn AttributeError "object has no attribute 'get'")).
Proof.
  intros Hd.
  assert (Hav : availability (Ok (PyDict d))
                = match any entry_matches (map PyDict entries ++ rest) with
                  | Ok true => Verdict Ready
                  | Ok false => Verdict (ModelMissing required_model)
                  | Raise ex =>
                      if is_KeyError ex
                      then Verdict (ProtocolMismatch
                                      ("Missing expected field in server response: "
                                         ++ str ex))
                      else Uncaught ex
                  end).
  { unfold availability, verify_model; cbn. rewrite Hd; cbn.
    destruct (any entry_matches _) as [[|] | ex]; reflexivity. }
  rewrite Hav. pose proof (any_entry_matches entries) as Hany. split.
  - intros Hex. apply existsb_names_required in Hex. rewrite Hex in Hany.
    rewrite (proj1 (any_app entry_matches _ rest) Hany). reflexivity.
  - intros Hno x rest' -> Hx.
    assert (Hf : existsb names_requiredb entries = false).
    { destruct (existsb names_requiredb entries) eqn:E; [| reflexivity].
      exfalso. apply Hno, existsb_names_required. exact E. }
    rewrite Hf in Hany.
    rewrite (proj2 (any_app entry_matches _ (x :: rest')) Hany). cbn - [entry_matches].
    rewrite (entry_matches_not_a_dict x Hx). reflexivity.
Qed.

Lemma model_search_stops_at_first_match_witness :
  availability
    (Ok (PyDict [("models",
                  PyList [PyDict [("model", PyStr "deepseek-r1:1.5b")]; PyNone])]))
  = Verdict Ready.
Proof.
  apply (proj1 (model_search_stops_at_first_match
                  [("models",
                    PyList [PyDict [("model", PyStr "deepseek-r1:1.5b")]; PyNone])]
                  [[("model", PyStr "deepseek-r1:1.5b")]] [PyNone] eq_refl)).
  apply Exists_cons_hd. left. reflexivity.
Defined.

(** X13.  The handler [except KeyError] of phase 2 is never entered: the
    subscript [server_status['models']] is only evaluated after the
    membership test, and [.get] does not raise for a missing key.  So the
    protocol-mismatch verdict is only given by the membership test, with
    the first of the two messages, and an item without [model] and without
    [name] only fails to match. *)
Theorem missing_field_handler_is_dead (server_status : pyval) :
  (forall ex, verify_model server_status = Raise ex -> is_KeyError ex = false) /\
  (forall detail,
     availability (Ok server_status) = Verdict (ProtocolMismatch detail) ->
     detail = "Unexpected Response Format" /\
     contains "models" server_status = Ok false) /\
  (forall d, server_status = PyDict d -> dict_get d "models" = Some (PyList [PyDict []]) ->
     availability (Ok server_status) = Verdict (ModelMissing required_model)).
Proof.
  repeat apply conj.
  - exact (verify_model_no_KeyError server_status).
  - intros detail H. cbn in H.
    destruct (verify_model server_status) as [[v |] | ex] eqn:Hv.
    + injection H as ->. unfold verify_model in Hv.
      destruct (contains "models" server_status) as [[|] |]; cbn in Hv; try discriminate.
      * destruct (getitem server_status "models") as [models |]; cbn in Hv; [| discriminate].
        destruct (iter models) as [items |]; cbn in Hv; [| discriminate].
        destruct (any entry_matches items) as [[|] |]; cbn in Hv; discriminate.
      * injection Hv as <-. split; reflexivity.
    + discriminate.
    + rewrite (verify_model_no_KeyError server_status ex Hv) in H. discriminate.
  - intros d -> Hd. unfold availability, verify_model; cbn. rewrite Hd. reflexivity.
Qed.

(** ** [initialize_session] over reruns *)

(** X15.  [initialize_session] only fills what is missing: on the session
    state a run left behind it changes nothing, so doing it again on every
    rerun keeps the transcript and the parameters; each of the two entries
    is defaulted on its own, and a transcript that is there is kept even
    when it is empty. *)
Theorem initialize_session_fills_only_gaps :
  (forall w, initialize_session (save w) = World (messages w) (params w) []) /\
  (forall ss, save (initialize_session (save (initialize_session ss)))
              = save (initialize_session ss)) /\
  (forall l, initialize_session (SessionState (Some l) None)
             = World l default_params []) /\
  (forall p, initialize_session (SessionState None (Some p))
             = World [initial_greeting] p []) /\
  (forall ss, messages (initialize_session ss) = [] <-> ss_messages ss = Some []).
Proof.
  repeat apply conj; try reflexivity.
  intros ss. unfold initialize_session; cbn [messages]. split.
  - destruct (ss_messages ss); [intros ->; reflexivity | discriminate].
  - intros H. rewrite H. reflexivity.
Qed.

(** ** Calls to the chat client over a run *)

(** X14.  A run of the script calls the chat client at most once, and it
    calls it exactly when the startup checks gave [Ready], the clear button
    was not pressed and a non-empty prompt was submitted; drawing the
    transcript calls nothing. *)
Theorem run_calls_chat_at_most_once (e : env) (ss : session_state) :
  chat_calls (page (main e ss)) <= 1 /\
  (chat_calls (page (main e ss)) = 1 <->
   availability (ollama_list e) = Verdict Ready /\
   button e clear_label = false /\
   exists prompt, chat_input e prompt_label = Some prompt /\ prompt <> "").
Proof.
  destruct (main_cases e ss) as [(Hn & _ & Hp) | [(_ & Hb & _ & Hp) | (Hv & Hb & _ & Hp)]];
    rewrite Hp.
  - cbn. split; [lia |]. split; [discriminate | intros (Hv & _); contradiction].
  - cbn. split; [lia |]. split; [discriminate | intros (_ & Hb' & _); congruence].
  - set (w1 := display_chat (after_sliders e (initialize_session ss))).
    destruct (shown_display_chat (after_sliders e (initialize_session ss)) eq_refl)
      as (_ & Hc & _). fold w1 in Hc.
    destruct (handle_query_outcomes e w1)
      as [(Hno & H) | (prompt & Hin & Ht & Hcases)].
    + rewrite H. cbn [snd]. rewrite Hc. split; [lia |].
      split; [discriminate |].
      intros (_ & _ & p & Hp' & Hne). destruct Hno as [Hn | Hn]; congruence.
    + assert (Hone : chat_calls (trace (snd (handle_query e w1))) = 1).
      { destruct Hcases as [(reply & _ & H) | [(ex & _ & _ & H) | (ex & _ & _ & H)]];
          rewrite H; cbn [snd trace]; unfold called;
          rewrite ?chat_calls_app, Hc; reflexivity. }
      rewrite Hone. split; [lia |]. split; [| reflexivity].
      intros _. split; [exact Hv |]. split; [exact Hb |].
      exists prompt. split; [exact Hin |]. destruct prompt; [discriminate Ht | discriminate].
Qed.
